(** * specutils.manipulation.utils: excision and model evaluation

    A shallow embedding of [specutils/manipulation/utils.py] and the
    properties of its four functions [linear_exciser], [excise_region],
    [excise_regions] and [spectrum_from_model].

    Modelling choices.
    - Flux and wavelength samples are exact rationals ([Q]) in the main
      embedding: the rounding, overflow, infinities and NaN of numpy's
      float64 are outside it, so its theorems about computed sample values
      hold for exact arithmetic only.  Equalities between computed samples
      are stated with [==] ([Qeq]), equalities between samples that are
      merely copied with [=].  Module [f64] gives lines 41-55 of
      [linear_exciser] a second embedding over binary64 floats, used to
      evaluate the code where float64 arithmetic decides the outcome.
    - numpy arrays that may be written through more than one name live in a
      store ([gmap nat (list Q)]); a spectrum holds the address of its flux
      buffer, so that a view and the array it was taken from are one cell.
    - Python exceptions are an outcome of the computation, next to the
      store as it stands when they are raised. *)

From Stdlib Require Import QArith Lqa ZArith Lia List String Floats.
From stdpp Require Import gmap list strings.

Local Open Scope Z_scope.

(** ** Exceptions, outcomes and the store monad *)

Inductive exn : Type :=
  | IndexError
  | ValueError (msg : string).

Inductive outcome (A : Type) : Type :=
  | Return (a : A)
  | Raise (e : exn).

Arguments Return {A} a.
Arguments Raise {A} e.

(** The store: address of an array buffer to its current samples.  An
    address that was never allocated reads as the empty array. *)
Abbreviation store := (gmap nat (list Q)).

Definition M (A : Type) : Type := store -> outcome A * store.

Definition ret {A} (a : A) : M A := fun h => (Return a, h).

Definition raise {A} (e : exn) : M A := fun h => (Raise e, h).

Definition bind {A B} (m : M A) (k : A -> M B) : M B :=
  fun h => match m h with
           | (Return a, h') => k a h'
           | (Raise e, h') => (Raise e, h')
           end.

Definition lift {A} (o : outcome A) : M A := fun h => (o, h).

Declare Scope py_scope.
Delimit Scope py_scope with py.
Notation "x <- c1 ;; c2" := (bind c1 (fun x => c2))
  (at level 100, c1 at next level, right associativity) : py_scope.
Notation "c1 ;;; c2" := (bind c1 (fun _ => c2))
  (at level 100, right associativity) : py_scope.
Local Open Scope py_scope.

(** [for x in xs: st = body(st, x)], the loop variable threaded through. *)
Fixpoint for_in {A S} (xs : list A) (st : S) (body : S -> A -> M S) : M S :=
  match xs with
  | [] => ret st
  | x :: xs' => st' <- body st x ;; for_in xs' st' body
  end.

(** Buffer primitives. *)
Definition load (l : nat) : M (list Q) := fun h => (Return (h !!! l), h).

Definition store_to (l : nat) (a : list Q) : M unit :=
  fun h => (Return tt, <[l := a]> h).

Definition alloc (a : list Q) : M nat :=
  fun h => let l := fresh (dom h) in (Return l, <[l := a]> h).

(** ** The numpy operations the module calls *)

Module np.

(** [a[i]] for an integer [i]: negative indices count from the end, an
    index outside the array raises [IndexError]. *)
Definition getitem {A} (a : list A) (i : Z) : outcome A :=
  let n := Z.of_nat (length a) in
  let j := if i <? 0 then i + n else i in
  if (0 <=? j) && (j <? n) then
    match a !! Z.to_nat j with
    | Some x => Return x
    | None => Raise IndexError
    end
  else Raise IndexError.

(** Bounds of the slice [a[s:e]] (step 1) in an array of [len] items. *)
Definition slice_bound (len i : Z) : Z :=
  if i <? 0 then Z.max (i + len) 0 else Z.min i len.

Definition slice_range (len : nat) (s e : Z) : nat * nat :=
  let lo := slice_bound (Z.of_nat len) s in
  let hi := Z.max lo (slice_bound (Z.of_nat len) e) in
  (Z.to_nat lo, Z.to_nat hi).

Definition getslice {A} (a : list A) (s e : Z) : list A :=
  let '(lo, hi) := slice_range (length a) s e in
  take (hi - lo)%nat (drop lo a).

(** [a[s:e] = vals]: same size, or one value broadcast over the slice. *)
Definition setslice {A} (a : list A) (s e : Z) (vals : list A)
  : outcome (list A) :=
  let '(lo, hi) := slice_range (length a) s e in
  if (length vals =? hi - lo)%nat then
    Return (take lo a ++ vals ++ drop hi a)
  else
    match vals with
    | [v] => Return (take lo a ++ replicate (hi - lo)%nat v ++ drop hi a)
    | _ => Raise (ValueError "could not broadcast input array")
    end.

(** [np.nonzero(mask)[0]]: the indices of the true entries, ascending. *)
Fixpoint nonzero_from (i : Z) (mask : list bool) : list Z :=
  match mask with
  | [] => []
  | b :: m => if b then i :: nonzero_from (i + 1) m
              else nonzero_from (i + 1) m
  end.

Definition nonzero (mask : list bool) : list Z := nonzero_from 0 mask.

(** [np.linspace(start, stop, num)] with the default [endpoint=True], as
    numpy computes it: [y = arange(0, num)], [delta = stop - start]; for
    [num > 1], [step = delta / (num - 1)] and [y = y * step], or
    [y = y / (num - 1) * delta] when [step] is zero; for [num <= 1],
    [y = y * delta]; then [y += start], and for [num > 1] the last sample
    is set to [stop].  The arithmetic is exact here; [f64.linspace] below
    is the same computation in float64. *)
Definition linspace (start stop : Q) (num : nat) : list Q :=
  let div := (num - 1)%nat in
  let y := map (fun i : nat => inject_Z (Z.of_nat i)) (seq 0 num) in
  let delta := (stop - start)%Q in
  let y :=
    if (1 <? num)%nat then
      let step := (delta / inject_Z (Z.of_nat div))%Q in
      if Qeq_bool step 0 then
        map (fun yi => (yi / inject_Z (Z.of_nat div) * delta)%Q) y
      else map (fun yi => (yi * step)%Q) y
    else map (fun yi => (yi * delta)%Q) y in
  let y := map (fun yi => (yi + start)%Q) y in
  if (1 <? num)%nat then <[div := stop]> y else y.

End np.

(** ** Lines 41-55 of [linear_exciser] over float64

    The same numpy operations on binary64 floats, with the IEEE-754
    arithmetic of the kernel's primitive floats: comparisons with NaN are
    false, a difference may overflow to infinity, [0 * infinity] is NaN. *)

Module f64.

Definition of_nat (n : nat) : float :=
  PrimFloat.of_uint63 (Uint63.of_Z (Z.of_nat n)).

(** [np.linspace(start, stop, num)], as [np.linspace] above. *)
Definition linspace (start stop : float) (num : nat) : list float :=
  let div := (num - 1)%nat in
  let y := map of_nat (seq 0 num) in
  let delta := PrimFloat.sub stop start in
  let y :=
    if (1 <? num)%nat then
      let step := PrimFloat.div delta (of_nat div) in
      if PrimFloat.eqb step PrimFloat.zero then
        map (fun yi => PrimFloat.mul (PrimFloat.div yi (of_nat div)) delta) y
      else map (fun yi => PrimFloat.mul yi step) y
    else map (fun yi => PrimFloat.mul yi delta) y in
  let y := map (fun yi => PrimFloat.add yi start) y in
  if (1 <? num)%nat then <[div := stop]> y else y.

(** [(wavelengths >= lower) & (wavelengths < upper)] *)
Definition wavelengths_in (wavelengths : list float) (lower upper : float)
  : list bool :=
  map (fun w => PrimFloat.leb lower w && PrimFloat.ltb w upper) wavelengths.

(** The array [modified_flux] after line 55, for the wavelengths and flux
    of the spectrum and the bounds of the region, or the exception raised
    before. *)
Definition modified_flux (wavelengths flux : list float) (lower upper : float)
  : outcome (list float) :=
  let inclusive_indices := np.nonzero (wavelengths_in wavelengths lower upper) in
  match np.getitem inclusive_indices 0 with
  | Raise x => Raise x
  | Return first =>
      match np.getitem inclusive_indices (-1) with
      | Raise x => Raise x
      | Return last =>
          let s := Z.max (first - 1) 0 in
          let e := Z.min (last + 1) (Z.of_nat (length wavelengths) - 1) in
          match np.getitem flux s with
          | Raise x => Raise x
          | Return fs =>
              match np.getitem flux e with
              | Raise x => Raise x
              | Return fe =>
                  np.setslice flux s e
                    (linspace fs fe (length (np.getslice flux s e)))
              end
          end
      end
  end.

End f64.

(** The same operations on an array held in the store. *)

(** [a[i]] *)
Definition buf_getitem (l : nat) (i : Z) : M Q :=
  a <- load l ;; lift (np.getitem a i).

(** [a[s:e].size] *)
Definition buf_slice_size (l : nat) (s e : Z) : M nat :=
  a <- load l ;; ret (length (np.getslice a s e)).

(** [a[s:e] = vals], in place *)
Definition buf_setslice (l : nat) (s e : Z) (vals : list Q) : M unit :=
  a <- load l ;; written <- lift (np.setslice a s e vals) ;; store_to l written.

(** ** The spectrum and region objects *)

(** Physical units, as far as this module handles them: it reads the
    unit of a quantity and multiplies an array by one. *)
Inductive Unit : Type :=
  | dimensionless
  | named_unit (name : string)
  | unit_mul (a b : Unit).

(** Modelled from the spec: the class [Spectrum1D] of [specutils.spectra]
    is imported by the module and its source is not part of it.  Following
    the data model of the spec, a spectrum pairs a wavelength axis with a
    flux sequence, optional uncertainty and coordinate metadata.  The flux
    buffer is held by address: [spectrum.flux] is a quantity over that
    buffer and [spectrum.flux.value] a view of it, sharing its storage
    with the spectrum (section 9 of the spec). *)
Record Spectrum1D : Type := mkSpectrum1D {
  data : nat;
  unit : Unit;
  spectral_axis : list Q;
  spectral_axis_unit : Unit;
  uncertainty : option (list Q);
  wcs : option string;
  velocity_convention : option string;
  rest_value : option Q
}.

(** A quantity whose samples live in the store. *)
Record Quantity : Type := mkQuantity { value : nat; q_unit : Unit }.

Definition flux (spectrum : Spectrum1D) : Quantity :=
  {| value := data spectrum; q_unit := unit spectrum |}.

(** Modelled from the spec: the constructor [Spectrum1D(flux=...,
    spectral_axis=..., uncertainty=None, wcs=None, unit=None,
    velocity_convention=None, rest_value=None)] keeps what it is given;
    the flux quantity brings its own unit. *)
Definition Spectrum1D_new (flux : Quantity) (axis : list Q) (axis_unit : Unit)
    (uncertainty : option (list Q)) (wcs : option string)
    (unit : option Unit) (velocity_convention : option string)
    (rest_value : option Q) : Spectrum1D :=
  {| data := value flux;
     unit := q_unit flux;
     spectral_axis := axis;
     spectral_axis_unit := axis_unit;
     uncertainty := uncertainty;
     wcs := wcs;
     velocity_convention := velocity_convention;
     rest_value := rest_value |}.

(** Modelled from the spec: [SpectralRegion] of [specutils.spectra], a
    half-open wavelength interval [[lower, upper)], in the unit of the
    axis it is compared with. *)
Record SpectralRegion : Type := mkSpectralRegion { lower : Q; upper : Q }.

(** The Python values the entry points may be handed. *)
Inductive pyobj : Type :=
  | PySpectrum1D (s : Spectrum1D)
  | PySpectralRegion (r : SpectralRegion)
  | PyObject (repr : string).

(** An array-like value passed to or returned by a model: a bare array
    or a quantity. *)
Inductive array_like : Type :=
  | ndarray (v : list Q)
  | quantity (v : list Q) (u : Unit).

(** Modelled from the spec: an [astropy.modeling] model, external to the
    module: the flag [uses_quantity] and the call itself. *)
Record Model : Type := mkModel {
  uses_quantity : bool;
  call : array_like -> M array_like
}.

(** [a * u] for a unit [u]: a bare array becomes a quantity in [u], a
    quantity has its unit multiplied. *)
Definition mul_unit (a : array_like) (u : Unit) : array_like :=
  match a with
  | ndarray v => quantity v u
  | quantity v u' => quantity v (unit_mul u' u)
  end.

(** Modelled from the spec: the constructor of [Spectrum1D] called on a
    freshly computed flux.  It enforces the data model of section 3 of the
    spec: the flux is a quantity (samples with a unit) and the flux
    sequence is as long as the wavelength axis; it raises [ValueError]
    otherwise, before anything is stored.  The spectrum it builds holds
    the flux samples in a buffer of its own. *)
Definition Spectrum1D_init (flux : array_like) (axis : list Q)
    (axis_unit : Unit) (uncertainty : option (list Q)) (wcs : option string)
    (unit : option Unit) (velocity_convention : option string)
    (rest_value : option Q) : M Spectrum1D :=
  match flux with
  | ndarray _ => raise (ValueError "Flux must be a Quantity object.")
  | quantity v u =>
      if (length v =? length axis)%nat then
        l <- alloc v ;;
        ret (Spectrum1D_new {| value := l; q_unit := u |} axis axis_unit
               uncertainty wcs unit velocity_convention rest_value)
      else
        raise (ValueError
                 "Spectral axis and flux must have the same length.")
  end.

(** [a * u] for a bare array [a] held in the store: a new quantity over a
    buffer of its own. *)
Definition buf_mul_unit (l : nat) (u : Unit) : M Quantity :=
  a <- load l ;; l' <- alloc a ;; ret {| value := l'; q_unit := u |}.

(** ** The functions of [specutils/manipulation/utils.py] *)

Definition Qlt_bool (x y : Q) : bool := negb (Qle_bool y x).

(** [(wavelengths >= region.lower) & (wavelengths < region.upper)] *)
Definition wavelengths_in (wavelengths : list Q) (region : SpectralRegion)
  : list bool :=
  map (fun w => Qle_bool (lower region) w && Qlt_bool w (upper region))
      wavelengths.

(** [np.nonzero(wavelengths_in)[0]] *)
Definition inclusive_indices (spectrum : Spectrum1D) (region : SpectralRegion)
  : list Z :=
  np.nonzero (wavelengths_in (spectral_axis spectrum) region).

(** [linear_exciser(spectrum, region)] (utils.py, lines 8-63).  [flux] is
    the view [spectrum.flux.value] and [modified_flux] a second name for
    it; the right-hand side of the slice assignment is evaluated before
    the store. *)
Definition linear_exciser (spectrum : Spectrum1D) (region : SpectralRegion)
  : M Spectrum1D :=
  let wavelengths := spectral_axis spectrum in
  let inclusive_indices := inclusive_indices spectrum region in
  first <- lift (np.getitem inclusive_indices 0) ;;
  last <- lift (np.getitem inclusive_indices (-1)) ;;
  let s := Z.max (first - 1) 0 in
  let e := Z.min (last + 1) (Z.of_nat (length wavelengths) - 1) in
  let flux_v := value (flux spectrum) in
  let modified_flux := flux_v in
  fs <- buf_getitem flux_v s ;;
  fe <- buf_getitem flux_v e ;;
  size <- buf_slice_size modified_flux s e ;;
  buf_setslice modified_flux s e (np.linspace fs fe size) ;;;
  new_flux <- buf_mul_unit modified_flux (q_unit (flux spectrum)) ;;
  ret (Spectrum1D_new new_flux wavelengths (spectral_axis_unit spectrum)
         (uncertainty spectrum) (wcs spectrum) (Some (unit spectrum))
         (velocity_convention spectrum) (rest_value spectrum)).

(** An exciser is called once both arguments have passed the type
    validation; what it returns is any Python value. *)
Definition exciser_t : Type := Spectrum1D -> SpectralRegion -> M pyobj.

(** [linear_exciser] as the default value of the [exciser] parameter. *)
Definition default_exciser : exciser_t :=
  fun spectrum region =>
    s <- linear_exciser spectrum region ;; ret (PySpectrum1D s).

(** [excise_region(spectrum, region, exciser)] (utils.py, lines 110-153) *)
Definition excise_region (spectrum region : pyobj) (exciser : exciser_t)
  : M pyobj :=
  match spectrum with
  | PySpectrum1D sp =>
      match region with
      | PySpectralRegion rg => exciser sp rg
      | _ => raise (ValueError
               "The region parameter must be a 2-tuples of start and end wavelengths.")
      end
  | _ => raise (ValueError "The spectrum parameter must be Spectrum1D object.")
  end.

(** [excise_regions(spectrum, regions, exciser)] (utils.py, lines 66-107) *)
Definition excise_regions (spectrum : pyobj) (regions : list pyobj)
    (exciser : exciser_t) : M pyobj :=
  match spectrum with
  | PySpectrum1D _ =>
      for_in regions spectrum
        (fun spectrum region => excise_region spectrum region exciser)
  | _ => raise (ValueError "The spectrum parameter must be Spectrum1D object.")
  end.

(** [spectrum_from_model(model_input, spectrum)] (utils.py, lines 156-192) *)
Definition spectrum_from_model (model_input : Model) (spectrum : Spectrum1D)
  : M Spectrum1D :=
  flux_val <-
    (if uses_quantity model_input then
       call model_input
         (quantity (spectral_axis spectrum) (spectral_axis_unit spectrum))
     else
       raw <- call model_input (ndarray (spectral_axis spectrum)) ;;
       ret (mul_unit raw (q_unit (flux spectrum)))) ;;
  Spectrum1D_init flux_val (spectral_axis spectrum)
    (spectral_axis_unit spectrum) None (wcs spectrum) None
    (velocity_convention spectrum) (rest_value spectrum).

(** What the store holds for a spectrum's flux. *)
Definition flux_values (h : store) (spectrum : Spectrum1D) : list Q :=
  h !!! data spectrum.

(** A five-sample spectrum, its flux at address 0 of [sample_store], and
    a region over its second and third samples. *)
Definition sample_spectrum : Spectrum1D :=
  {| data := 0%nat; unit := named_unit "Jy";
     spectral_axis := [1; 2; 3; 4; 5]%Q; spectral_axis_unit := named_unit "nm";
     uncertainty := None; wcs := None; velocity_convention := None;
     rest_value := None |}.

Definition sample_store : store := {[ 0%nat := [0; 9; 9; 6; 7]%Q ]}.

Definition sample_region : SpectralRegion := {| lower := 2; upper := 4 |}.

(** ** Definitions used to state the properties *)

(** The region matches a wavelength sample of the spectrum. *)
Definition matches (spectrum : Spectrum1D) (region : SpectralRegion) : Prop :=
  exists w, w ∈ spectral_axis spectrum /\
            (lower region <= w)%Q /\ (w < upper region)%Q.

(** The flux of a spectrum read back from the store, as a quantity. *)
Definition read_flux (h : store) (spectrum : Spectrum1D) : array_like :=
  quantity (flux_values h spectrum) (unit spectrum).

(** The samples of an array-like value, without its unit. *)
Definition values (a : array_like) : list Q :=
  match a with
  | ndarray v => v
  | quantity v _ => v
  end.

(** The value [spectrum_from_model] binds to its local variable [flux]
    (lines 180-186), before the constructor is called. *)
Definition model_flux (model_input : Model) (spectrum : Spectrum1D)
  : M array_like :=
  if uses_quantity model_input then
    call model_input
      (quantity (spectral_axis spectrum) (spectral_axis_unit spectrum))
  else
    raw <- call model_input (ndarray (spectral_axis spectrum)) ;;
    ret (mul_unit raw (q_unit (flux spectrum))).

(** The documented excision, following the words of the spec and of the
    docstring: the whole inclusive range [[s, e]] becomes a linear ramp
    from the flux at [s] to the flux at [e]. *)
Definition inclusive_ramp (fl : list Q) (s e : nat) (fs fe : Q) : list Q :=
  take s fl ++ np.linspace fs fe (e - s + 1) ++ drop (e + 1) fl.

(** Sequential application of [excise_region], region by region, as a
    left fold over the list of regions. *)
Definition excise_each (spectrum : pyobj) (regions : list pyobj)
    (exciser : exciser_t) : M pyobj :=
  fold_left
    (fun (acc : M pyobj) region =>
       spectrum <- acc ;; excise_region spectrum region exciser)
    regions (ret spectrum).

(** The flux after the slice assignment [modified_flux[s:e] = ...]: the
    half-open range [[s, e)] holds [e - s] linearly spaced samples from the
    flux at [s] to the flux at [e]. *)
Definition excised_flux (fl : list Q) (s e : nat) (fs fe : Q) : list Q :=
  take s fl ++ np.linspace fs fe (e - s) ++ drop e fl.

(** The bounds [s] and [e] of the written range, from the first and the
    last matched index: [max(first-1, 0)] and [min(last+1, size-1)]. *)
Definition ramp_start (first : Z) : nat := Z.to_nat (Z.max (first - 1) 0).

Definition ramp_stop (last : Z) (size : nat) : nat :=
  Z.to_nat (Z.min (last + 1) (Z.of_nat size - 1)).

(** A region beyond the last sample of [sample_spectrum]. *)
Definition far_region : SpectralRegion := {| lower := 10; upper := 20 |}.

(** A model doubling every sample; called on a quantity it answers in
    janskys, called on a bare array it answers with a bare array. *)
Definition doubling (a : array_like) : M array_like :=
  ret (match a with
       | ndarray v => ndarray (map (fun x => 2 * x)%Q v)
       | quantity v _ => quantity (map (fun x => 2 * x)%Q v) (named_unit "Jy")
       end).

Definition unit_aware_model : Model :=
  {| uses_quantity := true; call := doubling |}.

Definition unitless_model : Model :=
  {| uses_quantity := false; call := doubling |}.

(** Samples compared as rationals. *)
Definition Qlist_eqb (a b : list Q) : bool :=
  (length a =? length b)%nat
  && forallb (fun p => Qeq_bool (fst p) (snd p)) (combine a b).

(** ** Definitions used to state the further properties *)

(** Sample [i] of the wavelength axis lies in the region. *)
Definition sample_in_region (spectrum : Spectrum1D) (region : SpectralRegion)
    (i : nat) : Prop :=
  exists w, spectral_axis spectrum !! i = Some w /\
            (lower region <= w)%Q /\ (w < upper region)%Q.

(** The wavelength axis is in ascending order. *)
Definition ascending (axis : list Q) : Prop :=
  forall (i j : nat) (x y : Q),
    (i <= j)%nat -> axis !! i = Some x -> axis !! j = Some y -> (x <= y)%Q.

(** The metadata a spectrum carries next to its flux and axis. *)
Definition same_metadata (a b : Spectrum1D) : Prop :=
  wcs a = wcs b /\
  velocity_convention a = velocity_convention b /\
  rest_value a = rest_value b.

(** A region over the first sample of [sample_spectrum] only. *)
Definition edge_region : SpectralRegion := {| lower := 0; upper := 2 |}.





(** The flux of [sample_spectrum] next to the buffer of another array. *)
Definition shared_store : store :=
  {[ 0%nat := [0; 9; 9; 6; 7]%Q; 7%nat := [1; 1]%Q ]}.

(** ** Facts about the numpy operations *)

Lemma nonzero_from_bounds (mask : list bool) :
  forall i x, x ∈ np.nonzero_from i mask ->
              i <= x < i + Z.of_nat (length mask).
Proof.
  induction mask as [|b mask IH]; intros i x Hx; simpl in *.
  - inversion Hx.
  - destruct b.
    + apply elem_of_cons in Hx as [-> | Hx]; [lia|].
      apply IH in Hx. lia.
    + apply IH in Hx. lia.
Qed.

Lemma nonzero_from_nil (mask : list bool) :
  forall i, np.nonzero_from i mask = [] <-> Forall (fun b => b = false) mask.
Proof.
  induction mask as [|b mask IH]; intros i; simpl.
  - split; [constructor | reflexivity].
  - destruct b.
    + split; [discriminate | intros H; inversion H; discriminate].
    + rewrite IH. split; [constructor; auto | intros H; inversion H; auto].
Qed.

Lemma getitem_nil {A} (i : Z) : np.getitem (@nil A) i = Raise IndexError.
Proof.
  unfold np.getitem. simpl.
  destruct (i <? 0); simpl; destruct (_ && _); reflexivity.
Qed.

Lemma getitem_nat {A} (a : list A) (i : nat) (x : A) :
  a !! i = Some x -> np.getitem a (Z.of_nat i) = Return x.
Proof.
  intros H. unfold np.getitem.
  pose proof (lookup_lt_Some _ _ _ H) as Hlt.
  replace (Z.of_nat i <? 0) with false by lia.
  replace (0 <=? Z.of_nat i) with true by lia.
  replace (Z.of_nat i <? Z.of_nat (length a)) with true by lia.
  simpl. rewrite Nat2Z.id, H. reflexivity.
Qed.

Lemma getitem_first {A} (x : A) (rest : list A) :
  np.getitem (x :: rest) 0 = Return x.
Proof. apply (getitem_nat (x :: rest) 0 x). reflexivity. Qed.

Lemma getitem_last {A} (a : list A) (x : A) :
  last a = Some x -> np.getitem a (-1) = Return x.
Proof.
  intros H. unfold np.getitem.
  rewrite last_lookup in H.
  pose proof (lookup_lt_Some _ _ _ H) as Hlt.
  replace (-1 <? 0) with true by lia.
  replace (0 <=? -1 + Z.of_nat (length a)) with true by lia.
  replace (-1 + Z.of_nat (length a) <? Z.of_nat (length a)) with true by lia.
  simpl.
  replace (Z.to_nat (-1 + Z.of_nat (length a))) with (pred (length a)) by lia.
  rewrite H. reflexivity.
Qed.

Lemma getitem_Return_elem {A} (a : list A) (i : Z) (x : A) :
  np.getitem a i = Return x -> x ∈ a.
Proof.
  unfold np.getitem. intros H.
  destruct (_ && _); [|discriminate].
  destruct (a !! _) eqn:E; [|discriminate].
  injection H as <-. eapply list_elem_of_lookup_2; eauto.
Qed.

Lemma getitem_Return_nat {A} (a : list A) (i : Z) (x : A) :
  0 <= i -> np.getitem a i = Return x -> a !! Z.to_nat i = Some x.
Proof.
  unfold np.getitem. intros Hi H.
  replace (i <? 0) with false in H by lia.
  destruct (_ && _); [|discriminate].
  destruct (a !! _) eqn:E; [|discriminate].
  congruence.
Qed.

Lemma slice_range_nat (len s e : nat) :
  (s <= e <= len)%nat ->
  np.slice_range len (Z.of_nat s) (Z.of_nat e) = (s, e).
Proof.
  intros H. unfold np.slice_range, np.slice_bound.
  replace (Z.of_nat s <? 0) with false by lia.
  replace (Z.of_nat e <? 0) with false by lia.
  f_equal; lia.
Qed.

Lemma linspace_length (start stop : Q) (num : nat) :
  length (np.linspace start stop num) = num.
Proof.
  unfold np.linspace.
  destruct (1 <? num)%nat; [destruct (Qeq_bool _ 0)|];
    rewrite ?length_insert, !length_map, length_seq; reflexivity.
Qed.

Example linspace_3 : map Qred (np.linspace 0 6 3) = [0; 3; 6]%Q.
Proof. reflexivity. Qed.

Example linspace_1 : map Qred (np.linspace 4 9 1) = [4%Q].
Proof. reflexivity. Qed.

Example linspace_flat : map Qred (np.linspace 5 5 3) = [5; 5; 5]%Q.
Proof. reflexivity. Qed.

(** On the sample input the float64 embedding writes the same flux. *)
Example modified_flux_f64_sample :
  f64.modified_flux [1; 2; 3; 4; 5]%float [0; 9; 9; 6; 7]%float 2 4
  = Return [0; 3; 6; 6; 7]%float.
Proof. vm_compute. reflexivity. Qed.

Example nonzero_mask : np.nonzero [false; true; true; false] = [1; 2].
Proof. reflexivity. Qed.

Example getitem_negative : np.getitem [10; 20; 30] (-1) = Return 30.
Proof. reflexivity. Qed.

Example getitem_out_of_range : np.getitem [10; 20; 30] 3 = Raise IndexError.
Proof. reflexivity. Qed.

Example setslice_half_open :
  np.setslice [0; 9; 9; 6; 7] 0 3 [1; 2; 3] = Return [1; 2; 3; 6; 7].
Proof. reflexivity. Qed.

Lemma nonzero_from_ascending (mask : list bool) :
  forall i x rest, np.nonzero_from i mask = x :: rest ->
                   forall y, y ∈ rest -> x < y.
Proof.
  induction mask as [|b mask IH]; intros i x rest H y Hy; simpl in H.
  - discriminate.
  - destruct b.
    + injection H as <- <-. apply nonzero_from_bounds in Hy. lia.
    + eapply IH; eauto.
Qed.

(** ** Facts about the matched indices *)

Lemma in_region_true (region : SpectralRegion) (w : Q) :
  Qle_bool (lower region) w && Qlt_bool w (upper region) = true <->
  (lower region <= w)%Q /\ (w < upper region)%Q.
Proof.
  unfold Qlt_bool. rewrite andb_true_iff, negb_true_iff, Qle_bool_iff.
  split; intros [H1 H2]; split; auto.
  - apply Qnot_le_lt. intros H. apply Qle_bool_iff in H. congruence.
  - destruct (Qle_bool (upper region) w) eqn:E; [|reflexivity].
    apply Qle_bool_iff in E. exfalso. eapply Qlt_not_le; eauto.
Qed.

Lemma matches_inclusive_indices (spectrum : Spectrum1D) (region : SpectralRegion) :
  matches spectrum region <-> inclusive_indices spectrum region <> [].
Proof.
  unfold matches, inclusive_indices, np.nonzero, wavelengths_in.
  rewrite nonzero_from_nil, Forall_fmap, Forall_forall.
  split.
  - intros (w & Hw & Hin) Hall.
    specialize (Hall w Hw). simpl in Hall.
    apply in_region_true in Hin. congruence.
  - intros Hsome.
    destruct (decide (Exists (fun w => Qle_bool (lower region) w
                 && Qlt_bool w (upper region) = true) (spectral_axis spectrum)))
      as [Hex | Hnex].
    + apply Exists_exists in Hex as (w & Hw & Hin).
      exists w. split; [exact Hw | apply in_region_true; exact Hin].
    + exfalso. apply Hsome. intros w Hw. simpl.
      destruct (Qle_bool (lower region) w && Qlt_bool w (upper region)) eqn:E;
        [|reflexivity].
      exfalso. apply Hnex. apply Exists_exists. eauto.
Qed.

Lemma inclusive_indices_ends (spectrum : Spectrum1D) (region : SpectralRegion) :
  inclusive_indices spectrum region <> [] ->
  exists first last,
    np.getitem (inclusive_indices spectrum region) 0 = Return first /\
    np.getitem (inclusive_indices spectrum region) (-1) = Return last.
Proof.
  intros Hne.
  destruct (inclusive_indices spectrum region) as [|x rest] eqn:E; [congruence|].
  destruct (last (x :: rest)) as [y|] eqn:El.
  - exists x, y. split; [apply getitem_first | apply getitem_last, El].
  - apply last_None in El. discriminate.
Qed.

Lemma inclusive_indices_bounds (spectrum : Spectrum1D) (region : SpectralRegion)
    (first last : Z) :
  np.getitem (inclusive_indices spectrum region) 0 = Return first ->
  np.getitem (inclusive_indices spectrum region) (-1) = Return last ->
  0 <= first <= last /\ last < Z.of_nat (length (spectral_axis spectrum)).
Proof.
  intros Hf Hl.
  assert (Hlen : length (wavelengths_in (spectral_axis spectrum) region)
                 = length (spectral_axis spectrum))
    by (unfold wavelengths_in; apply length_map).
  unfold inclusive_indices, np.nonzero in *.
  destruct (np.nonzero_from 0 _) as [|x rest] eqn:E.
  - rewrite getitem_nil in Hf. discriminate.
  - rewrite getitem_first in Hf. injection Hf as ->.
    apply getitem_Return_elem in Hl.
    assert (Hx : first ∈ np.nonzero_from 0 (wavelengths_in (spectral_axis spectrum) region))
      by (rewrite E; left).
    apply nonzero_from_bounds in Hx.
    apply elem_of_cons in Hl as [-> | Hl].
    + lia.
    + pose proof (nonzero_from_ascending _ _ _ _ E _ Hl).
      assert (Hy : last ∈ np.nonzero_from 0 (wavelengths_in (spectral_axis spectrum) region))
        by (rewrite E; right; exact Hl).
      apply nonzero_from_bounds in Hy. lia.
Qed.

(** ** What [linear_exciser] computes *)

Lemma linear_exciser_run (spectrum : Spectrum1D) (region : SpectralRegion)
    (h : store) (first last : Z) :
  np.getitem (inclusive_indices spectrum region) 0 = Return first ->
  np.getitem (inclusive_indices spectrum region) (-1) = Return last ->
  length (flux_values h spectrum) = length (spectral_axis spectrum) ->
  let s := Z.to_nat (Z.max (first - 1) 0) in
  let e := Z.to_nat (Z.min (last + 1)
                       (Z.of_nat (length (spectral_axis spectrum)) - 1)) in
  let fl := flux_values h spectrum in
  exists fs fe,
    fl !! s = Some fs /\ fl !! e = Some fe /\ (s <= e < length fl)%nat /\
    let fl' := excised_flux fl s e fs fe in
    let h1 := <[data spectrum := fl']> h in
    linear_exciser spectrum region h =
      (Return (Spectrum1D_new
                 {| value := fresh (dom h1); q_unit := unit spectrum |}
                 (spectral_axis spectrum) (spectral_axis_unit spectrum)
                 (uncertainty spectrum) (wcs spectrum) (Some (unit spectrum))
                 (velocity_convention spectrum) (rest_value spectrum)),
       <[fresh (dom h1) := fl']> h1).
Proof.
  intros Hf Hl Hlen s e fl.
  destruct (inclusive_indices_bounds _ _ _ _ Hf Hl) as [Hfl Hlast].
  assert (Hse : (s <= e < length fl)%nat) by (subst s e fl; lia).
  destruct (lookup_lt_is_Some_2 fl s) as [fs Hfs]; [lia|].
  destruct (lookup_lt_is_Some_2 fl e) as [fe Hfe]; [lia|].
  exists fs, fe. repeat split; try assumption; try lia.
  assert (Hs : Z.max (first - 1) 0 = Z.of_nat s) by (subst s; lia).
  assert (He : Z.min (last + 1) (Z.of_nat (length (spectral_axis spectrum)) - 1)
               = Z.of_nat e) by (subst e; lia).
  unfold linear_exciser, bind, lift, buf_getitem, buf_slice_size, buf_setslice,
    buf_mul_unit, load, store_to, alloc, ret, bind, lift. simpl.
  rewrite Hf, Hl, Hs, He.
  fold (flux_values h spectrum). fold fl.
  rewrite (getitem_nat fl s fs Hfs), (getitem_nat fl e fe Hfe).
  unfold np.getslice, np.setslice.
  rewrite (slice_range_nat (length fl) s e) by lia.
  rewrite length_take, length_drop, linspace_length.
  replace ((e - s) `min` (length fl - s))%nat with (e - s)%nat by lia.
  rewrite Nat.eqb_refl.
  rewrite lookup_total_insert_eq.
  reflexivity.
Qed.

(** The same run, seen from outside: the spectrum returned, its flux, and
    the flux the input spectrum is left with. *)
Lemma linear_exciser_returns (spectrum : Spectrum1D) (region : SpectralRegion)
    (h : store) (first last : Z) :
  np.getitem (inclusive_indices spectrum region) 0 = Return first ->
  np.getitem (inclusive_indices spectrum region) (-1) = Return last ->
  length (flux_values h spectrum) = length (spectral_axis spectrum) ->
  let s := ramp_start first in
  let e := ramp_stop last (length (spectral_axis spectrum)) in
  let fl := flux_values h spectrum in
  exists fs fe out h',
    fl !! s = Some fs /\ fl !! e = Some fe /\ (s <= e < length fl)%nat /\
    linear_exciser spectrum region h = (Return out, h') /\
    flux_values h' out = excised_flux fl s e fs fe /\
    flux_values h' spectrum = excised_flux fl s e fs fe /\
    data out <> data spectrum /\
    spectral_axis out = spectral_axis spectrum /\
    uncertainty out = uncertainty spectrum.
Proof.
  intros Hf Hl Hlen s e fl.
  destruct (linear_exciser_run spectrum region h first last Hf Hl Hlen)
    as (fs & fe & Hfs & Hfe & Hse & Hrun).
  cbv zeta in Hrun.
  fold (ramp_start first) in *.
  fold (ramp_stop last (length (spectral_axis spectrum))) in *.
  fold fl in Hfs, Hfe, Hse, Hrun.
  set (fl' := excised_flux fl s e fs fe) in *.
  set (h1 := <[data spectrum := fl']> h) in *.
  assert (Hfresh : fresh (dom h1) <> data spectrum).
  { intros Heq. apply (is_fresh (dom h1)). rewrite Heq.
    subst h1. rewrite dom_insert_L.
    apply elem_of_union; left. apply elem_of_singleton. reflexivity. }
  eexists fs, fe, _, _.
  split; [exact Hfs|]. split; [exact Hfe|]. split; [exact Hse|].
  split; [exact Hrun|].
  unfold flux_values. simpl.
  rewrite lookup_total_insert_eq.
  rewrite lookup_total_insert_ne by exact Hfresh.
  subst h1. rewrite lookup_total_insert_eq.
  repeat split; try reflexivity. exact Hfresh.
Qed.

(** ** The ramp is monotone and stays between its end values *)





Lemma linspace_last (start stop : Q) (num : nat) :
  (2 <= num)%nat -> np.linspace start stop num !! (num - 1)%nat = Some stop.
Proof.
  intros Hn. unfold np.linspace.
  replace (1 <? num)%nat with true by (symmetry; apply Nat.ltb_lt; lia).
  apply list_lookup_insert_eq.
  destruct (Qeq_bool _ 0); rewrite !length_map, length_seq; lia.
Qed.


(** ** Shape of the excised flux *)

Lemma excised_flux_length (fl : list Q) (s e : nat) (fs fe : Q) :
  (s <= e <= length fl)%nat ->
  length (excised_flux fl s e fs fe) = length fl.
Proof.
  intros H. unfold excised_flux.
  rewrite !length_app, length_take, linspace_length, length_drop. lia.
Qed.

Lemma excised_flux_before (fl : list Q) (s e i : nat) (fs fe : Q) :
  (s <= e <= length fl)%nat -> (i < s)%nat ->
  excised_flux fl s e fs fe !! i = fl !! i.
Proof.
  intros H Hi. unfold excised_flux.
  rewrite lookup_app_l by (rewrite length_take; lia).
  apply lookup_take_lt. lia.
Qed.

Lemma excised_flux_from_stop (fl : list Q) (s e i : nat) (fs fe : Q) :
  (s <= e <= length fl)%nat -> (e <= i)%nat ->
  excised_flux fl s e fs fe !! i = fl !! i.
Proof.
  intros H Hi. unfold excised_flux.
  rewrite lookup_app_r by (rewrite length_take; lia).
  rewrite length_take.
  rewrite lookup_app_r by (rewrite linspace_length; lia).
  rewrite linspace_length, lookup_drop. f_equal. lia.
Qed.

Lemma excised_flux_inside (fl : list Q) (s e i : nat) (fs fe : Q) :
  (s <= e <= length fl)%nat -> (s <= i < e)%nat ->
  excised_flux fl s e fs fe !! i = np.linspace fs fe (e - s) !! (i - s)%nat.
Proof.
  intros H Hi. unfold excised_flux.
  rewrite lookup_app_r by (rewrite length_take; lia).
  rewrite length_take.
  replace (i - s `min` length fl)%nat with (i - s)%nat by lia.
  apply lookup_app_l. rewrite linspace_length. lia.
Qed.



(** With two or more samples written, the ramp reaches the flux of index
    [e] at index [e - 1] already; index [e] keeps the same value. *)
Lemma excised_flux_stop_early (fl : list Q) (s e : nat) (fs fe : Q) :
  (s <= e <= length fl)%nat -> (2 <= e - s)%nat ->
  excised_flux fl s e fs fe !! (e - 1)%nat = Some fe.
Proof.
  intros Hse H2.
  rewrite excised_flux_inside by lia.
  replace (e - 1 - s)%nat with (e - s - 1)%nat by lia.
  apply linspace_last. exact H2.
Qed.

(** ** Properties of [linear_exciser] *)

(** C1.  On the spectrum with flux [0, 9, 9, 6, 7] over wavelengths
    [1..5] and the region [[2, 4)], the matched indices are 1 and 2 and the
    extended range is [[0, 3]].  A linear ramp over the whole inclusive
    range from the flux at 0 to the flux at 3 would be [0, 2, 4, 6]; the
    slice [s:e] leaves out index [e], so the code writes the three samples
    [0, 3, 6] at indices 0..2 and the result is [0, 3, 6, 6, 7]. *)
Theorem linear_exciser_ramp_stops_short :
  let r := linear_exciser sample_spectrum sample_region sample_store in
  np.getitem (inclusive_indices sample_spectrum sample_region) 0 = Return 1 /\
  np.getitem (inclusive_indices sample_spectrum sample_region) (-1) = Return 2 /\
  ramp_start 1 = 0%nat /\
  ramp_stop 2 (length (spectral_axis sample_spectrum)) = 3%nat /\
  exists out,
    fst r = Return out /\
    map Qred (flux_values (snd r) out) = [0; 3; 6; 6; 7]%Q /\
    map Qred (inclusive_ramp (flux_values sample_store sample_spectrum)
                0 3 0 6) = [0; 2; 4; 6; 7]%Q /\
    Qlist_eqb (flux_values (snd r) out)
      (inclusive_ramp (flux_values sample_store sample_spectrum) 0 3 0 6)
    = false.
Proof.
  intros r. repeat split; try reflexivity.
  eexists. split; [vm_compute; reflexivity|].
  repeat split; vm_compute; reflexivity.
Qed.

(** C2.  On the same input the flux buffer of the input spectrum, which
    held [0, 9, 9, 6, 7] before the call, holds [0, 3, 6, 6, 7] after it:
    [modified_flux] is another name for the view [spectrum.flux.value], and
    the slice assignment writes through it.  The returned spectrum is a
    new object over a buffer of its own. *)
Theorem linear_exciser_overwrites_input :
  let r := linear_exciser sample_spectrum sample_region sample_store in
  flux_values sample_store sample_spectrum = [0; 9; 9; 6; 7]%Q /\
  map Qred (flux_values (snd r) sample_spectrum) = [0; 3; 6; 6; 7]%Q /\
  Qlist_eqb (flux_values (snd r) sample_spectrum)
            (flux_values sample_store sample_spectrum) = false /\
  exists out, fst r = Return out /\ data out <> data sample_spectrum.
Proof.
  intros r. repeat split; try (vm_compute; reflexivity).
  eexists. split; [vm_compute; reflexivity|].
  vm_compute. discriminate.
Qed.

(** C3.  When no wavelength sample of the spectrum lies in
    [[lower, upper)], [linear_exciser] raises [IndexError] (from
    [inclusive_indices[0]] on the empty index array); it returns no
    spectrum, raises no [ValueError] with a message, and leaves the store
    as it was. *)
Theorem linear_exciser_no_match (spectrum : Spectrum1D)
    (region : SpectralRegion) (h : store) :
  ~ matches spectrum region ->
  linear_exciser spectrum region h = (Raise IndexError, h).
Proof.
  intros Hno.
  rewrite matches_inclusive_indices in Hno.
  destruct (inclusive_indices spectrum region) as [|x rest] eqn:E.
  - unfold linear_exciser, bind, lift. rewrite E, getitem_nil. reflexivity.
  - exfalso. apply Hno. discriminate.
Qed.

Lemma linear_exciser_no_match_witness :
  ~ matches sample_spectrum far_region /\
  linear_exciser sample_spectrum far_region sample_store
  = (Raise IndexError, sample_store).
Proof.
  assert (H : ~ matches sample_spectrum far_region).
  { rewrite matches_inclusive_indices. intros Hne. apply Hne. reflexivity. }
  split; [exact H | exact (linear_exciser_no_match _ _ _ H)].
Defined.

(** C8.  For a spectrum whose flux and wavelength sequences have the same
    length and a region that matches a sample, [linear_exciser] returns a
    spectrum with the same wavelength axis and a flux of the same length,
    and every flux sample at an index below [s = max(first-1, 0)] or above
    [e = min(last+1, size-1)] is the input's sample at that index. *)
Theorem linear_exciser_keeps_shape (spectrum : Spectrum1D)
    (region : SpectralRegion) (h : store) :
  length (flux_values h spectrum) = length (spectral_axis spectrum) ->
  matches spectrum region ->
  exists first last out h',
    np.getitem (inclusive_indices spectrum region) 0 = Return first /\
    np.getitem (inclusive_indices spectrum region) (-1) = Return last /\
    linear_exciser spectrum region h = (Return out, h') /\
    spectral_axis out = spectral_axis spectrum /\
    length (flux_values h' out) = length (flux_values h spectrum) /\
    length (flux_values h' out) = length (spectral_axis out) /\
    forall i : nat,
      (i < ramp_start first)%nat \/
      (ramp_stop last (length (spectral_axis spectrum)) < i)%nat ->
      flux_values h' out !! i = flux_values h spectrum !! i.
Proof.
  intros Hlen Hm.
  apply matches_inclusive_indices in Hm.
  destruct (inclusive_indices_ends _ _ Hm) as (first & last & Hf & Hl).
  destruct (linear_exciser_returns spectrum region h first last Hf Hl Hlen)
    as (fs & fe & out & h' & Hfs & Hfe & Hse & Hrun & Hout & _ & _ & Hax & _).
  exists first, last, out, h'.
  split; [exact Hf|]. split; [exact Hl|]. split; [exact Hrun|].
  rewrite Hout, Hax, excised_flux_length by lia.
  repeat split; try congruence.
  intros i [Hi | Hi].
  - apply excised_flux_before; lia.
  - apply excised_flux_from_stop; lia.
Qed.

Lemma linear_exciser_keeps_shape_witness :
  length (flux_values sample_store sample_spectrum)
  = length (spectral_axis sample_spectrum) /\
  matches sample_spectrum sample_region /\
  exists first last out h',
    np.getitem (inclusive_indices sample_spectrum sample_region) 0
    = Return first /\
    np.getitem (inclusive_indices sample_spectrum sample_region) (-1)
    = Return last /\
    linear_exciser sample_spectrum sample_region sample_store
    = (Return out, h') /\
    spectral_axis out = spectral_axis sample_spectrum /\
    length (flux_values h' out)
    = length (flux_values sample_store sample_spectrum) /\
    length (flux_values h' out) = length (spectral_axis out) /\
    forall i : nat,
      (i < ramp_start first)%nat \/
      (ramp_stop last (length (spectral_axis sample_spectrum)) < i)%nat ->
      flux_values h' out !! i = flux_values sample_store sample_spectrum !! i.
Proof.
  assert (Hlen : length (flux_values sample_store sample_spectrum)
                 = length (spectral_axis sample_spectrum)) by reflexivity.
  assert (Hm : matches sample_spectrum sample_region).
  { apply matches_inclusive_indices. vm_compute. discriminate. }
  split; [exact Hlen|]. split; [exact Hm|].
  exact (linear_exciser_keeps_shape sample_spectrum sample_region sample_store
           Hlen Hm).
Defined.

(** ** Properties of [excise_region] and [excise_regions] *)

Lemma bind_ret_r {A} (m : M A) (h : store) : bind m ret h = m h.
Proof. unfold bind, ret. destruct (m h) as [[a|e] h']; reflexivity. Qed.

Lemma bind_assoc {A B C} (m : M A) (f : A -> M B) (g : B -> M C) (h : store) :
  bind (bind m f) g h = bind m (fun a => bind (f a) g) h.
Proof. unfold bind. destruct (m h) as [[a|e] h']; reflexivity. Qed.

(** The loop of [excise_regions], started from a computation of the
    spectrum, is the left fold of the loop body over the regions. *)
Lemma fold_left_for_in {A S} (body : S -> A -> M S) (xs : list A) :
  forall (acc : M S) (h : store),
    fold_left (fun (acc : M S) x => st <- acc ;; body st x) xs acc h
    = bind acc (fun st => for_in xs st body) h.
Proof.
  induction xs as [|x xs IH]; intros acc h; simpl.
  - symmetry. apply bind_ret_r.
  - rewrite IH. apply bind_assoc.
Qed.

(** C4.  For a spectrum and any list of regions, [excise_regions] returns
    (or raises) what applying [excise_region] to each region in list order
    does, the spectrum of each call passed to the next: the left fold of
    [excise_region] over the list, from the input spectrum, and it leaves
    the same store. *)
Theorem excise_regions_is_fold (spectrum : Spectrum1D) (regions : list pyobj)
    (exciser : exciser_t) (h : store) :
  excise_regions (PySpectrum1D spectrum) regions exciser h
  = excise_each (PySpectrum1D spectrum) regions exciser h.
Proof.
  unfold excise_regions, excise_each.
  rewrite fold_left_for_in. unfold bind, ret. reflexivity.
Qed.

(** For a value that is no spectrum the two differ on the empty list only:
    [excise_regions] validates its argument before the loop. *)
Lemma excise_regions_not_spectrum (repr : string) (regions : list pyobj)
    (exciser : exciser_t) (h : store) :
  excise_regions (PyObject repr) regions exciser h
  = (Raise (ValueError "The spectrum parameter must be Spectrum1D object."), h).
Proof. reflexivity. Qed.

(** C7.  [excise_region] raises [ValueError] when the spectrum argument is
    not a [Spectrum1D], and when the region argument is not a
    [SpectralRegion]; in both cases whatever the exciser is, and with the
    store untouched, so the exciser has not run.  When both have the
    expected types the call is the exciser's call on them, with no
    validation error added. *)
Theorem excise_region_validates (spectrum region : pyobj)
    (exciser : exciser_t) (h : store) :
  ((forall sp, spectrum <> PySpectrum1D sp) ->
   excise_region spectrum region exciser h
   = (Raise (ValueError "The spectrum parameter must be Spectrum1D object."),
      h)) /\
  (forall sp, spectrum = PySpectrum1D sp ->
     (forall rg, region <> PySpectralRegion rg) ->
     excise_region spectrum region exciser h
     = (Raise (ValueError
          "The region parameter must be a 2-tuples of start and end wavelengths."),
        h)) /\
  (forall sp rg, spectrum = PySpectrum1D sp -> region = PySpectralRegion rg ->
     excise_region spectrum region exciser h = exciser sp rg h).
Proof.
  repeat split.
  - intros Hns. destruct spectrum as [sp| |]; try reflexivity.
    exfalso. apply (Hns sp). reflexivity.
  - intros sp -> Hnr. destruct region as [|rg|]; try reflexivity.
    exfalso. apply (Hnr rg). reflexivity.
  - intros sp rg -> ->. reflexivity.
Qed.

(** C10.  On an empty list of regions [excise_regions] returns the input
    spectrum itself and leaves the store as it was, whatever the exciser
    is: neither the exciser nor the validation of a region runs. *)
Theorem excise_regions_nil (spectrum : Spectrum1D) (exciser : exciser_t)
    (h : store) :
  excise_regions (PySpectrum1D spectrum) [] exciser h
  = (Return (PySpectrum1D spectrum), h).
Proof. reflexivity. Qed.

Lemma excise_region_validates_witness :
  excise_region (PyObject "None") (PySpectralRegion sample_region)
    default_exciser sample_store
  = (Raise (ValueError "The spectrum parameter must be Spectrum1D object."),
     sample_store) /\
  excise_region (PySpectrum1D sample_spectrum) (PyObject "(2, 4)")
    default_exciser sample_store
  = (Raise (ValueError
       "The region parameter must be a 2-tuples of start and end wavelengths."),
     sample_store) /\
  excise_region (PySpectrum1D sample_spectrum) (PySpectralRegion sample_region)
    default_exciser sample_store
  = default_exciser sample_spectrum sample_region sample_store.
Proof.
  split; [|split].
  - apply (proj1 (excise_region_validates (PyObject "None")
                    (PySpectralRegion sample_region) default_exciser
                    sample_store)).
    intros sp. discriminate.
  - apply (proj1 (proj2 (excise_region_validates (PySpectrum1D sample_spectrum)
                           (PyObject "(2, 4)") default_exciser sample_store))
             sample_spectrum).
    + reflexivity.
    + intros rg. discriminate.
  - apply (proj2 (proj2 (excise_region_validates (PySpectrum1D sample_spectrum)
                           (PySpectralRegion sample_region) default_exciser
                           sample_store))); reflexivity.
Defined.

(** ** Properties of [spectrum_from_model] *)

(** C5.  When the model understands units and its call on the wavelength
    axis (a quantity, in the unit of the axis) returns a value, the flux of
    every spectrum [spectrum_from_model] returns is that value; and a
    spectrum is returned when that value is a quantity as long as the
    axis.  When the model does not understand units and its call on the
    bare wavelength values returns a value, the flux of every spectrum
    returned is that value multiplied by the flux unit of the input
    spectrum; and a spectrum is returned when that value is as long as the
    axis. *)
Theorem spectrum_from_model_flux (model_input : Model) (spectrum : Spectrum1D)
    (h : store) :
  (uses_quantity model_input = true ->
   forall computed h1,
     call model_input
       (quantity (spectral_axis spectrum) (spectral_axis_unit spectrum)) h
     = (Return computed, h1) ->
     (forall out h2,
         spectrum_from_model model_input spectrum h = (Return out, h2) ->
         read_flux h2 out = computed) /\
     (forall v u,
         computed = quantity v u ->
         length v = length (spectral_axis spectrum) ->
         exists out h2,
           spectrum_from_model model_input spectrum h = (Return out, h2) /\
           read_flux h2 out = computed)) /\
  (uses_quantity model_input = false ->
   forall raw h1,
     call model_input (ndarray (spectral_axis spectrum)) h
     = (Return raw, h1) ->
     (forall out h2,
         spectrum_from_model model_input spectrum h = (Return out, h2) ->
         read_flux h2 out = mul_unit raw (unit spectrum)) /\
     (length (values raw) = length (spectral_axis spectrum) ->
      exists out h2,
        spectrum_from_model model_input spectrum h = (Return out, h2) /\
        read_flux h2 out = mul_unit raw (unit spectrum))).
Proof.
  assert (Hinit : forall (v : list Q) (u : Unit) (h1 : store) out h2,
             Spectrum1D_init (quantity v u) (spectral_axis spectrum)
               (spectral_axis_unit spectrum) None (wcs spectrum) None
               (velocity_convention spectrum) (rest_value spectrum) h1
             = (Return out, h2) ->
             read_flux h2 out = quantity v u).
  { intros v u h1 out h2. unfold Spectrum1D_init.
    destruct (length v =? length (spectral_axis spectrum))%nat;
      [|discriminate].
    unfold bind, alloc, ret. intros H. injection H as <- <-.
    unfold read_flux, flux_values. simpl.
    rewrite lookup_total_insert_eq. reflexivity. }
  assert (Hret : forall (v : list Q) (u : Unit) (h1 : store),
             length v = length (spectral_axis spectrum) ->
             exists out h2,
               Spectrum1D_init (quantity v u) (spectral_axis spectrum)
                 (spectral_axis_unit spectrum) None (wcs spectrum) None
                 (velocity_convention spectrum) (rest_value spectrum) h1
               = (Return out, h2) /\
               read_flux h2 out = quantity v u).
  { intros v u h1 Hlen. unfold Spectrum1D_init.
    rewrite Hlen, Nat.eqb_refl. unfold bind, alloc, ret.
    eexists _, _. split; [reflexivity|].
    unfold read_flux, flux_values. simpl.
    rewrite lookup_total_insert_eq. reflexivity. }
  split; intros Hu res h1 Hcall.
  - assert (Hrun : forall h0,
               spectrum_from_model model_input spectrum h = h0 ->
               Spectrum1D_init res (spectral_axis spectrum)
                 (spectral_axis_unit spectrum) None (wcs spectrum) None
                 (velocity_convention spectrum) (rest_value spectrum) h1 = h0).
    { intros h0 <-. unfold spectrum_from_model, bind. rewrite Hu, Hcall.
      reflexivity. }
    split.
    + intros out h2 H. apply Hrun in H.
      destruct res as [v | v u]; [discriminate|].
      eapply Hinit. exact H.
    + intros v u -> Hlen.
      destruct (Hret v u h1 Hlen) as (out & h2 & Hr & Hf).
      exists out, h2. split; [|exact Hf].
      rewrite <- Hr. symmetry. apply Hrun. reflexivity.
  - assert (Hrun : forall h0,
               spectrum_from_model model_input spectrum h = h0 ->
               Spectrum1D_init (mul_unit res (unit spectrum))
                 (spectral_axis spectrum)
                 (spectral_axis_unit spectrum) None (wcs spectrum) None
                 (velocity_convention spectrum) (rest_value spectrum) h1 = h0).
    { intros h0 <-. unfold spectrum_from_model, bind. rewrite Hu.
      unfold bind. rewrite Hcall. reflexivity. }
    split.
    + intros out h2 H. apply Hrun in H.
      destruct res as [v | v u]; simpl in *; eapply Hinit; exact H.
    + intros Hlen.
      destruct res as [v | v u]; simpl in *.
      * destruct (Hret v (unit spectrum) h1 Hlen) as (out & h2 & Hr & Hf).
        exists out, h2. split; [|exact Hf].
        rewrite <- Hr. symmetry. apply Hrun. reflexivity.
      * destruct (Hret v (unit_mul u (unit spectrum)) h1 Hlen)
          as (out & h2 & Hr & Hf).
        exists out, h2. split; [|exact Hf].
        rewrite <- Hr. symmetry. apply Hrun. reflexivity.
Qed.

Lemma spectrum_from_model_flux_witness :
  (exists out h2,
     spectrum_from_model unit_aware_model sample_spectrum sample_store
     = (Return out, h2) /\
     read_flux h2 out
     = quantity [2 * 1; 2 * 2; 2 * 3; 2 * 4; 2 * 5]%Q (named_unit "Jy")) /\
  (exists out h2,
     spectrum_from_model unitless_model sample_spectrum sample_store
     = (Return out, h2) /\
     read_flux h2 out
     = quantity [2 * 1; 2 * 2; 2 * 3; 2 * 4; 2 * 5]%Q (named_unit "Jy")).
Proof.
  split.
  - apply (proj2 (proj1 (spectrum_from_model_flux unit_aware_model
                           sample_spectrum sample_store) eq_refl
                    (quantity [2 * 1; 2 * 2; 2 * 3; 2 * 4; 2 * 5]%Q
                       (named_unit "Jy"))
                    sample_store eq_refl)
             [2 * 1; 2 * 2; 2 * 3; 2 * 4; 2 * 5]%Q (named_unit "Jy")
             eq_refl eq_refl).
  - apply (proj2 (proj2 (spectrum_from_model_flux unitless_model
                           sample_spectrum sample_store) eq_refl
                    (ndarray [2 * 1; 2 * 2; 2 * 3; 2 * 4; 2 * 5]%Q)
                    sample_store eq_refl)
             eq_refl).
Defined.



(** ** Further facts about slices and indexing *)

Lemma getitem_ge {A} (a : list A) (i : Z) :
  Z.of_nat (length a) <= i -> np.getitem a i = Raise IndexError.
Proof.
  intros H. unfold np.getitem.
  replace (i <? 0) with false by lia.
  replace (i <? Z.of_nat (length a)) with false by lia.
  rewrite andb_false_r. reflexivity.
Qed.

Lemma getitem_outcome {A} (a : list A) (i : Z) :
  (exists x, np.getitem a i = Return x) \/ np.getitem a i = Raise IndexError.
Proof.
  unfold np.getitem. destruct (_ && _); [|right; reflexivity].
  destruct (a !! _); [left; eexists; reflexivity | right; reflexivity].
Qed.

Lemma slice_range_bounds (len : nat) (s e : Z) :
  (fst (np.slice_range len s e) <= snd (np.slice_range len s e) <= len)%nat.
Proof.
  unfold np.slice_range, np.slice_bound. simpl.
  destruct (s <? 0) eqn:Hs; destruct (e <? 0) eqn:He; lia.
Qed.

Lemma getslice_length {A} (a : list A) (s e : Z) :
  length (np.getslice a s e)
  = (snd (np.slice_range (length a) s e)
     - fst (np.slice_range (length a) s e))%nat.
Proof.
  pose proof (slice_range_bounds (length a) s e) as H.
  unfold np.getslice. destruct (np.slice_range (length a) s e) as [lo hi].
  simpl in *. rewrite length_take, length_drop. lia.
Qed.

(** A slice assignment of as many values as the slice holds never fails. *)
Lemma setslice_same_size {A} (a : list A) (s e : Z) (vals : list A) :
  length vals = length (np.getslice a s e) ->
  np.setslice a s e vals
  = Return (take (fst (np.slice_range (length a) s e)) a ++ vals
            ++ drop (snd (np.slice_range (length a) s e)) a).
Proof.
  intros H. rewrite getslice_length in H.
  unfold np.setslice. destruct (np.slice_range (length a) s e) as [lo hi].
  simpl in *. rewrite H, Nat.eqb_refl. reflexivity.
Qed.

(** ** The three ways a call of [linear_exciser] can go *)

Lemma linear_exciser_empty_indices (spectrum : Spectrum1D)
    (region : SpectralRegion) (h : store) :
  inclusive_indices spectrum region = [] ->
  linear_exciser spectrum region h = (Raise IndexError, h).
Proof.
  intros E. unfold linear_exciser, bind, lift. rewrite E, getitem_nil.
  reflexivity.
Qed.

Lemma linear_exciser_short_flux (spectrum : Spectrum1D)
    (region : SpectralRegion) (h : store) (first last : Z) :
  np.getitem (inclusive_indices spectrum region) 0 = Return first ->
  np.getitem (inclusive_indices spectrum region) (-1) = Return last ->
  (length (flux_values h spectrum)
   <= ramp_stop last (length (spectral_axis spectrum)))%nat ->
  linear_exciser spectrum region h = (Raise IndexError, h).
Proof.
  intros Hf Hl Hshort.
  destruct (inclusive_indices_bounds _ _ _ _ Hf Hl) as [Hfl Hlast].
  unfold ramp_stop in Hshort.
  unfold linear_exciser, bind, lift, buf_getitem, load, bind, lift. simpl.
  rewrite Hf, Hl. fold (flux_values h spectrum).
  destruct (getitem_outcome (flux_values h spectrum) (Z.max (first - 1) 0))
    as [[fs ->] | ->]; [|reflexivity].
  rewrite getitem_ge by lia. reflexivity.
Qed.

Lemma linear_exciser_long_flux (spectrum : Spectrum1D) (region : SpectralRegion)
    (h : store) (first last : Z) :
  np.getitem (inclusive_indices spectrum region) 0 = Return first ->
  np.getitem (inclusive_indices spectrum region) (-1) = Return last ->
  (ramp_stop last (length (spectral_axis spectrum))
   < length (flux_values h spectrum))%nat ->
  let s := ramp_start first in
  let e := ramp_stop last (length (spectral_axis spectrum)) in
  let fl := flux_values h spectrum in
  exists fs fe,
    fl !! s = Some fs /\ fl !! e = Some fe /\ (s <= e < length fl)%nat /\
    let fl' := excised_flux fl s e fs fe in
    let h1 := <[data spectrum := fl']> h in
    linear_exciser spectrum region h =
      (Return (Spectrum1D_new
                 {| value := fresh (dom h1); q_unit := unit spectrum |}
                 (spectral_axis spectrum) (spectral_axis_unit spectrum)
                 (uncertainty spectrum) (wcs spectrum) (Some (unit spectrum))
                 (velocity_convention spectrum) (rest_value spectrum)),
       <[fresh (dom h1) := fl']> h1).
Proof.
  intros Hf Hl Hlong s e fl.
  destruct (inclusive_indices_bounds _ _ _ _ Hf Hl) as [Hfl Hlast].
  assert (Hse : (s <= e < length fl)%nat)
    by (subst s e fl; unfold ramp_start, ramp_stop in *; lia).
  destruct (lookup_lt_is_Some_2 fl s) as [fs Hfs]; [lia|].
  destruct (lookup_lt_is_Some_2 fl e) as [fe Hfe]; [lia|].
  exists fs, fe. repeat split; try assumption; try lia.
  assert (Hs : Z.max (first - 1) 0 = Z.of_nat s)
    by (subst s; unfold ramp_start; lia).
  assert (He : Z.min (last + 1) (Z.of_nat (length (spectral_axis spectrum)) - 1)
               = Z.of_nat e) by (subst e; unfold ramp_stop; lia).
  unfold linear_exciser, bind, lift, buf_getitem, buf_slice_size, buf_setslice,
    buf_mul_unit, load, store_to, alloc, ret, bind, lift. simpl.
  rewrite Hf, Hl, Hs, He.
  fold (flux_values h spectrum). fold fl.
  rewrite (getitem_nat fl s fs Hfs), (getitem_nat fl e fe Hfe).
  rewrite setslice_same_size by (rewrite linspace_length; reflexivity).
  rewrite getslice_length, (slice_range_nat (length fl) s e) by lia.
  simpl. rewrite lookup_total_insert_eq.
  reflexivity.
Qed.

(** What a returning call has done, read off its result. *)
Lemma linear_exciser_Return_inv (spectrum out : Spectrum1D)
    (region : SpectralRegion) (h h' : store) :
  linear_exciser spectrum region h = (Return out, h') ->
  exists first last fs fe,
    np.getitem (inclusive_indices spectrum region) 0 = Return first /\
    np.getitem (inclusive_indices spectrum region) (-1) = Return last /\
    let s := ramp_start first in
    let e := ramp_stop last (length (spectral_axis spectrum)) in
    let fl := flux_values h spectrum in
    let fl' := excised_flux fl s e fs fe in
    fl !! s = Some fs /\ fl !! e = Some fe /\ (s <= e < length fl)%nat /\
    out = Spectrum1D_new
            {| value := fresh (dom (<[data spectrum := fl']> h));
               q_unit := unit spectrum |}
            (spectral_axis spectrum) (spectral_axis_unit spectrum)
            (uncertainty spectrum) (wcs spectrum) (Some (unit spectrum))
            (velocity_convention spectrum) (rest_value spectrum) /\
    h' = <[data out := fl']> (<[data spectrum := fl']> h) /\
    data out <> data spectrum /\
    (data out ∉ dom h) /\
    flux_values h' out = fl' /\
    flux_values h' spectrum = fl'.
Proof.
  intros Hret.
  destruct (inclusive_indices spectrum region) as [|x rest] eqn:E.
  { rewrite linear_exciser_empty_indices in Hret by exact E. discriminate. }
  destruct (inclusive_indices_ends spectrum region) as (first & last & Hf & Hl).
  { rewrite E. discriminate. }
  rewrite <- E in *. clear E x rest.
  destruct (le_lt_dec (length (flux_values h spectrum))
              (ramp_stop last (length (spectral_axis spectrum)))) as [Hs | Hlong].
  { rewrite (linear_exciser_short_flux _ _ _ _ _ Hf Hl Hs) in Hret.
    discriminate. }
  destruct (linear_exciser_long_flux _ _ _ _ _ Hf Hl Hlong)
    as (fs & fe & Hfs & Hfe & Hse & Hrun).
  cbv zeta in Hrun. rewrite Hrun in Hret.
  injection Hret as Hout Hh'.
  exists first, last, fs, fe. cbv zeta.
  set (fl' := excised_flux (flux_values h spectrum) (ramp_start first)
                (ramp_stop last (length (spectral_axis spectrum))) fs fe) in *.
  set (h1 := <[data spectrum := fl']> h) in *.
  assert (Hnew : fresh (dom h1) ∉ dom h1) by apply is_fresh.
  assert (Hdom : dom h1 = {[data spectrum]} ∪ dom h)
    by (subst h1; apply dom_insert_L).
  assert (Hself : data spectrum ∈ dom h1).
  { rewrite Hdom. apply elem_of_union; left. apply elem_of_singleton.
    reflexivity. }
  assert (Hsub : forall l : nat, l ∈ dom h -> l ∈ dom h1).
  { intros l Hin. rewrite Hdom. apply elem_of_union; right. exact Hin. }
  assert (Hne : fresh (dom h1) <> data spectrum).
  { intros Heq. apply Hnew. rewrite Heq. exact Hself. }
  assert (Hnh : fresh (dom h1) ∉ dom h).
  { intros Hin. apply Hnew. apply Hsub. exact Hin. }
  assert (Hd : data out = fresh (dom h1)) by (rewrite <- Hout; reflexivity).
  split; [exact Hf|]. split; [exact Hl|].
  split; [exact Hfs|]. split; [exact Hfe|]. split; [exact Hse|].
  split; [symmetry; exact Hout|].
  split; [rewrite Hd; symmetry; exact Hh'|].
  split; [rewrite Hd; exact Hne|].
  split; [rewrite Hd; exact Hnh|].
  unfold flux_values. rewrite <- Hh', Hd.
  split.
  - apply lookup_total_insert_eq.
  - rewrite lookup_total_insert_ne by exact Hne.
    subst h1. apply lookup_total_insert_eq.
Qed.

(** ** Further properties of [linear_exciser] *)



(** X2.  A call that returns has written the same samples to two cells:
    the flux buffer of the input spectrum, in place, and a new buffer that
    was not in the store before, which the returned spectrum holds.  Every
    other cell of the store is as it was. *)
Theorem linear_exciser_frame (spectrum out : Spectrum1D)
    (region : SpectralRegion) (h h' : store) :
  linear_exciser spectrum region h = (Return out, h') ->
  (data out ∉ dom h) /\
  data out <> data spectrum /\
  flux_values h' spectrum = flux_values h' out /\
  forall l : nat, l <> data spectrum -> l <> data out -> h' !! l = h !! l.
Proof.
  intros Hret.
  destruct (linear_exciser_Return_inv _ _ _ _ _ Hret)
    as (first & last & fs & fe & _ & _ & Hinv).
  cbv zeta in Hinv.
  destruct Hinv as (_ & _ & _ & _ & Hh' & Hne & Hnew & Ho & Hi).
  split; [exact Hnew|]. split; [exact Hne|].
  split; [congruence|].
  intros l Hl1 Hl2. rewrite Hh'.
  rewrite lookup_insert_ne by congruence.
  rewrite lookup_insert_ne by congruence. reflexivity.
Qed.

(** X3.  The returned spectrum carries the flux unit, the axis unit, the
    uncertainty, the WCS, the velocity convention and the rest value of
    the input spectrum: the uncertainty is kept although the flux has
    changed. *)
Theorem linear_exciser_keeps_metadata (spectrum out : Spectrum1D)
    (region : SpectralRegion) (h h' : store) :
  linear_exciser spectrum region h = (Return out, h') ->
  unit out = unit spectrum /\
  spectral_axis_unit out = spectral_axis_unit spectrum /\
  uncertainty out = uncertainty spectrum /\
  same_metadata out spectrum.
Proof.
  intros Hret.
  destruct (linear_exciser_Return_inv _ _ _ _ _ Hret)
    as (first & last & fs & fe & _ & _ & Hinv).
  cbv zeta in Hinv.
  destruct Hinv as (_ & _ & _ & -> & _).
  unfold same_metadata. repeat split.
Qed.

Lemma linear_exciser_frame_witness :
  exists out h',
    linear_exciser sample_spectrum sample_region sample_store
    = (Return out, h') /\
    (data out ∉ dom sample_store) /\
    data out <> data sample_spectrum /\
    flux_values h' sample_spectrum = flux_values h' out /\
    forall l : nat,
      l <> data sample_spectrum -> l <> data out ->
      h' !! l = sample_store !! l.
Proof.
  eexists _, _. split; [vm_compute; reflexivity|].
  apply (linear_exciser_frame sample_spectrum _ sample_region sample_store _).
  vm_compute; reflexivity.
Defined.

Lemma linear_exciser_keeps_metadata_witness :
  exists out h',
    linear_exciser sample_spectrum sample_region sample_store
    = (Return out, h') /\
    unit out = unit sample_spectrum /\
    spectral_axis_unit out = spectral_axis_unit sample_spectrum /\
    uncertainty out = uncertainty sample_spectrum /\
    same_metadata out sample_spectrum.
Proof.
  eexists _, _. split; [vm_compute; reflexivity|].
  eapply (linear_exciser_keeps_metadata sample_spectrum _ sample_region
            sample_store).
  vm_compute; reflexivity.
Defined.

(** ** The matched indices *)

Lemma nonzero_from_elem (mask : list bool) :
  forall (base x : Z),
    x ∈ np.nonzero_from base mask <->
    exists k : nat, mask !! k = Some true /\ x = base + Z.of_nat k.
Proof.
  induction mask as [|b mask IH]; intros base x; simpl.
  - split; [intros H; inversion H | intros (k & H & _); discriminate].
  - assert (Htail : x ∈ np.nonzero_from (base + 1) mask <->
                    exists k : nat, (b :: mask) !! S k = Some true /\
                                    x = base + Z.of_nat (S k)).
    { rewrite IH. split; intros (k & Hk & ->); exists k; (split; [exact Hk | lia]). }
    destruct b.
    + rewrite elem_of_cons, Htail. split.
      * intros [-> | (k & Hk & ->)].
        -- exists 0%nat. split; [reflexivity | lia].
        -- exists (S k). split; [exact Hk | reflexivity].
      * intros ([|k] & Hk & ->).
        -- left. lia.
        -- right. exists k. split; [exact Hk | reflexivity].
    + rewrite Htail. split.
      * intros (k & Hk & ->). exists (S k). split; [exact Hk | reflexivity].
      * intros ([|k] & Hk & ->); [discriminate|].
        exists k. split; [exact Hk | reflexivity].
Qed.

Lemma nonzero_from_increasing (mask : list bool) :
  forall (base : Z) (i j : nat) (x y : Z),
    (i < j)%nat ->
    np.nonzero_from base mask !! i = Some x ->
    np.nonzero_from base mask !! j = Some y ->
    x < y.
Proof.
  induction mask as [|b mask IH]; intros base i j x y Hij Hx Hy; simpl in *.
  - discriminate.
  - destruct b; [|eapply IH; eauto].
    destruct j as [|j]; [lia|]. simpl in Hy.
    destruct i as [|i]; simpl in Hx.
    + injection Hx as <-.
      apply list_elem_of_lookup_2, nonzero_from_bounds in Hy. lia.
    + eapply (IH (base + 1) i j); eauto. lia.
Qed.

Lemma elem_of_inclusive_indices (spectrum : Spectrum1D)
    (region : SpectralRegion) (x : Z) :
  x ∈ inclusive_indices spectrum region <->
  exists i : nat, x = Z.of_nat i /\ sample_in_region spectrum region i.
Proof.
  unfold inclusive_indices, np.nonzero, wavelengths_in, sample_in_region.
  rewrite nonzero_from_elem. split.
  - intros (k & Hk & ->). exists k. split; [lia|].
    rewrite list_lookup_fmap in Hk.
    destruct (spectral_axis spectrum !! k) as [w|]; [|discriminate].
    simpl in Hk. injection Hk as Hk. apply in_region_true in Hk.
    exists w. split; [reflexivity | exact Hk].
  - intros (i & -> & w & Hw & Hin). exists i. split; [|lia].
    rewrite list_lookup_fmap, Hw. simpl. f_equal.
    apply in_region_true. exact Hin.
Qed.

(** X7.  The matched indices are exactly the indices of the wavelength
    samples [w] with [lower <= w < upper] (a sample equal to [lower] is
    matched, a sample equal to [upper] is not), listed in strictly
    increasing order. *)
Theorem inclusive_indices_spec (spectrum : Spectrum1D) (region : SpectralRegion) :
  (forall x : Z,
      x ∈ inclusive_indices spectrum region <->
      exists i : nat, x = Z.of_nat i /\
        exists w, spectral_axis spectrum !! i = Some w /\
                  (lower region <= w)%Q /\ (w < upper region)%Q) /\
  (forall (i j : nat) (x y : Z),
      (i < j)%nat ->
      inclusive_indices spectrum region !! i = Some x ->
      inclusive_indices spectrum region !! j = Some y ->
      x < y).
Proof.
  split.
  - intros x. apply elem_of_inclusive_indices.
  - intros i j x y. apply nonzero_from_increasing.
Qed.

Lemma sample_axis_ascending : ascending (spectral_axis sample_spectrum).
Proof.
  intros i j x y Hij Hx Hy.
  destruct i as [|[|[|[|[|i]]]]]; destruct j as [|[|[|[|[|j]]]]];
    simpl in *; try discriminate; try lia;
    injection Hx as <-; injection Hy as <-; unfold Qle; simpl; lia.
Qed.

(** X8.  On an ascending wavelength axis the matched samples form one
    block: every index from the first matched index to the last is
    matched, so the written range [[s, e)] holds matched samples and the
    sample before them only. *)
Theorem inclusive_indices_contiguous (spectrum : Spectrum1D)
    (region : SpectralRegion) (first last : Z) :
  ascending (spectral_axis spectrum) ->
  np.getitem (inclusive_indices spectrum region) 0 = Return first ->
  np.getitem (inclusive_indices spectrum region) (-1) = Return last ->
  forall x : Z, first <= x <= last -> x ∈ inclusive_indices spectrum region.
Proof.
  intros Hasc Hf Hl x Hx.
  destruct (inclusive_indices_bounds _ _ _ _ Hf Hl) as [Hfl Hlast].
  apply getitem_Return_elem, elem_of_inclusive_indices in Hf
    as (a & -> & wa & Hwa & Hla & _).
  apply getitem_Return_elem, elem_of_inclusive_indices in Hl
    as (b & -> & wb & Hwb & _ & Hub).
  apply elem_of_inclusive_indices.
  exists (Z.to_nat x). split; [lia|].
  destruct (lookup_lt_is_Some_2 (spectral_axis spectrum) (Z.to_nat x))
    as [w Hw]; [lia|].
  exists w. split; [exact Hw|].
  pose proof (Hasc a (Z.to_nat x) wa w ltac:(lia) Hwa Hw) as H1.
  pose proof (Hasc (Z.to_nat x) b w wb ltac:(lia) Hw Hwb) as H2.
  split; lra.
Qed.

Lemma inclusive_indices_contiguous_witness :
  ascending (spectral_axis sample_spectrum) /\
  np.getitem (inclusive_indices sample_spectrum sample_region) 0 = Return 1 /\
  np.getitem (inclusive_indices sample_spectrum sample_region) (-1) = Return 2 /\
  forall x : Z, 1 <= x <= 2 -> x ∈ inclusive_indices sample_spectrum sample_region.
Proof.
  split; [exact sample_axis_ascending|].
  split; [reflexivity|]. split; [reflexivity|].
  apply (inclusive_indices_contiguous sample_spectrum sample_region 1 2).
  - exact sample_axis_ascending.
  - reflexivity.
  - reflexivity.
Defined.

(** ** The ramp over the range the region determines *)







(** ** Further properties of [excise_regions] *)

Lemma bind_congr {A B} (m : M A) (f g : A -> M B) (h : store) :
  (forall a h', f a h' = g a h') -> bind m f h = bind m g h.
Proof.
  intros Hfg. unfold bind.
  destruct (m h) as [[a|e] h']; [apply Hfg | reflexivity].
Qed.

Lemma for_in_app {A S} (body : S -> A -> M S) (xs ys : list A) :
  forall (st : S) (h : store),
    for_in (xs ++ ys) st body h
    = bind (for_in xs st body) (fun st' => for_in ys st' body) h.
Proof.
  induction xs as [|x xs IH]; intros st h; simpl.
  - reflexivity.
  - rewrite bind_assoc. apply bind_congr. intros st' h'. apply IH.
Qed.

(** X9.  Excising a list of regions and then a second list from the
    spectrum obtained is excising the two lists in one call: when
    [excise_regions] on [regions] returns a spectrum, [excise_regions] on
    [regions ++ more] continues from that spectrum and that store. *)
Theorem excise_regions_app (spectrum mid : Spectrum1D)
    (regions more : list pyobj) (exciser : exciser_t) (h h' : store) :
  excise_regions (PySpectrum1D spectrum) regions exciser h
  = (Return (PySpectrum1D mid), h') ->
  excise_regions (PySpectrum1D spectrum) (regions ++ more) exciser h
  = excise_regions (PySpectrum1D mid) more exciser h'.
Proof.
  unfold excise_regions. intros H.
  rewrite for_in_app. unfold bind. rewrite H. reflexivity.
Qed.

Lemma excise_regions_app_witness :
  exists mid h',
    excise_regions (PySpectrum1D sample_spectrum)
      [PySpectralRegion sample_region] default_exciser sample_store
    = (Return (PySpectrum1D mid), h') /\
    excise_regions (PySpectrum1D sample_spectrum)
      ([PySpectralRegion sample_region] ++ [PySpectralRegion edge_region])
      default_exciser sample_store
    = excise_regions (PySpectrum1D mid) [PySpectralRegion edge_region]
        default_exciser h'.
Proof.
  eexists _, _. split; [vm_compute; reflexivity|].
  apply (excise_regions_app sample_spectrum _
           [PySpectralRegion sample_region] [PySpectralRegion edge_region]
           default_exciser sample_store _).
  vm_compute; reflexivity.
Defined.

(** X10.  The loop stops at the first call that raises: when
    [excise_regions] on [regions] raises, it raises the same exception and
    leaves the same store on [regions ++ more], whatever [more] holds. *)
Theorem excise_regions_stops_at_failure (spectrum : Spectrum1D)
    (regions more : list pyobj) (exciser : exciser_t) (h h' : store)
    (e : exn) :
  excise_regions (PySpectrum1D spectrum) regions exciser h = (Raise e, h') ->
  excise_regions (PySpectrum1D spectrum) (regions ++ more) exciser h
  = (Raise e, h').
Proof.
  unfold excise_regions. intros H.
  rewrite for_in_app. unfold bind. rewrite H. reflexivity.
Qed.

Lemma excise_regions_stops_at_failure_witness :
  excise_regions (PySpectrum1D sample_spectrum)
    [PySpectralRegion far_region] default_exciser sample_store
  = (Raise IndexError, sample_store) /\
  excise_regions (PySpectrum1D sample_spectrum)
    ([PySpectralRegion far_region] ++ [PySpectralRegion sample_region])
    default_exciser sample_store
  = (Raise IndexError, sample_store).
Proof.
  assert (H : excise_regions (PySpectrum1D sample_spectrum)
                [PySpectralRegion far_region] default_exciser sample_store
              = (Raise IndexError, sample_store)) by reflexivity.
  split; [exact H|].
  exact (excise_regions_stops_at_failure sample_spectrum
           [PySpectralRegion far_region] [PySpectralRegion sample_region]
           default_exciser sample_store sample_store IndexError H).
Defined.

(** X11.  The regions are validated one by one as the loop reaches them,
    not beforehand: an element that is no [SpectralRegion] raises
    [ValueError] only after the regions before it have been excised, and
    the store then holds what those calls wrote. *)
Theorem excise_regions_validates_lazily (spectrum mid : Spectrum1D)
    (regions more : list pyobj) (bad : pyobj) (exciser : exciser_t)
    (h h' : store) :
  excise_regions (PySpectrum1D spectrum) regions exciser h
  = (Return (PySpectrum1D mid), h') ->
  (forall rg, bad <> PySpectralRegion rg) ->
  excise_regions (PySpectrum1D spectrum) (regions ++ bad :: more) exciser h
  = (Raise (ValueError
       "The region parameter must be a 2-tuples of start and end wavelengths."),
     h').
Proof.
  unfold excise_regions. intros H Hbad.
  rewrite for_in_app. unfold bind at 1. rewrite H. simpl.
  unfold bind.
  destruct bad as [sp | rg | repr]; try reflexivity.
  exfalso. apply (Hbad rg). reflexivity.
Qed.

Lemma excise_regions_validates_lazily_witness :
  exists mid h',
    excise_regions (PySpectrum1D sample_spectrum)
      [PySpectralRegion sample_region] default_exciser sample_store
    = (Return (PySpectrum1D mid), h') /\
    map Qred (flux_values h' sample_spectrum) = [0; 3; 6; 6; 7]%Q /\
    excise_regions (PySpectrum1D sample_spectrum)
      ([PySpectralRegion sample_region]
       ++ PyObject "(2, 4)" :: [PySpectralRegion edge_region])
      default_exciser sample_store
    = (Raise (ValueError
         "The region parameter must be a 2-tuples of start and end wavelengths."),
       h').
Proof.
  eexists _, _. split; [vm_compute; reflexivity|].
  split; [vm_compute; reflexivity|].
  eapply (excise_regions_validates_lazily sample_spectrum _
            [PySpectralRegion sample_region] [PySpectralRegion edge_region]
            (PyObject "(2, 4)") default_exciser sample_store).
  - vm_compute; reflexivity.
  - intros rg. discriminate.
Defined.

(** X12.  With the default exciser, a call of [excise_regions] that
    returns returns a spectrum, with the wavelength axis, the flux length,
    the units, the uncertainty and the metadata of the input spectrum,
    whatever the number of regions. *)
Theorem excise_regions_default_keeps_shape (regions : list pyobj) :
  forall (spectrum : Spectrum1D) (result : pyobj) (h h' : store),
    excise_regions (PySpectrum1D spectrum) regions default_exciser h
    = (Return result, h') ->
    exists out,
      result = PySpectrum1D out /\
      spectral_axis out = spectral_axis spectrum /\
      length (flux_values h' out) = length (flux_values h spectrum) /\
      unit out = unit spectrum /\
      spectral_axis_unit out = spectral_axis_unit spectrum /\
      uncertainty out = uncertainty spectrum /\
      same_metadata out spectrum.
Proof.
  unfold excise_regions.
  induction regions as [|region regions IH]; intros spectrum result h h' H.
  - simpl in H. unfold ret in H. injection H as <- <-.
    exists spectrum. unfold same_metadata. repeat split.
  - simpl in H. unfold bind at 1 in H.
    destruct region as [sp | rg | repr]; simpl in H; try discriminate.
    unfold default_exciser, bind at 1 in H.
    destruct (linear_exciser spectrum rg h) as [[mid|e] h1] eqn:E;
      [|discriminate].
    unfold ret at 1 in H.
    destruct (IH mid result h1 h' H)
      as (out & -> & Hax & Hlen & Hu & Hau & Hunc & Hw & Hv & Hr).
    destruct (linear_exciser_Return_inv _ _ _ _ _ E)
      as (first & last & fs & fe & _ & _ & Hinv).
    cbv zeta in Hinv.
    destruct Hinv as (_ & _ & Hse & Hmid & _ & _ & _ & Ho & _).
    assert (Hlen1 : length (flux_values h1 mid) = length (flux_values h spectrum))
      by (rewrite Ho; apply excised_flux_length; lia).
    rewrite Hmid in Hax, Hu, Hau, Hunc, Hw, Hv, Hr. simpl in *.
    exists out. unfold same_metadata.
    repeat split; try assumption. congruence.
Qed.

Lemma excise_regions_default_keeps_shape_witness :
  exists result h',
    excise_regions (PySpectrum1D sample_spectrum)
      [PySpectralRegion sample_region; PySpectralRegion edge_region]
      default_exciser sample_store
    = (Return result, h') /\
    exists out,
      result = PySpectrum1D out /\
      spectral_axis out = spectral_axis sample_spectrum /\
      length (flux_values h' out)
      = length (flux_values sample_store sample_spectrum) /\
      unit out = unit sample_spectrum /\
      spectral_axis_unit out = spectral_axis_unit sample_spectrum /\
      uncertainty out = uncertainty sample_spectrum /\
      same_metadata out sample_spectrum.
Proof.
  eexists _, _. split; [vm_compute; reflexivity|].
  apply (excise_regions_default_keeps_shape
           [PySpectralRegion sample_region; PySpectralRegion edge_region]
           sample_spectrum _ sample_store _).
  vm_compute; reflexivity.
Defined.

(** ** Further properties of [spectrum_from_model] *)

Lemma spectrum_from_model_unfold (model_input : Model) (spectrum : Spectrum1D)
    (h : store) :
  spectrum_from_model model_input spectrum h
  = bind (model_flux model_input spectrum)
      (fun flux_val =>
         Spectrum1D_init flux_val (spectral_axis spectrum)
           (spectral_axis_unit spectrum) None (wcs spectrum) None
           (velocity_convention spectrum) (rest_value spectrum)) h.
Proof. reflexivity. Qed.



(** X14.  [spectrum_from_model] writes no buffer: whether it returns or
    raises, every cell the store held after the call of the model holds
    the same samples afterwards, the flux of the input spectrum among
    them. *)
Theorem spectrum_from_model_writes_no_buffer (model_input : Model)
    (spectrum : Spectrum1D) (h h1 h2 : store) (computed : outcome array_like)
    (result : outcome Spectrum1D) :
  model_flux model_input spectrum h = (computed, h1) ->
  spectrum_from_model model_input spectrum h = (result, h2) ->
  forall l : nat, l ∈ dom h1 -> h2 !! l = h1 !! l.
Proof.
  intros Hflux Hrun l Hl.
  rewrite spectrum_from_model_unfold in Hrun. unfold bind in Hrun.
  rewrite Hflux in Hrun.
  destruct computed as [[v | v u] | e].
  - simpl in Hrun. injection Hrun as _ <-. reflexivity.
  - unfold Spectrum1D_init in Hrun.
    destruct (length v =? length (spectral_axis spectrum))%nat.
    + unfold bind, alloc, ret in Hrun. injection Hrun as _ <-.
      apply lookup_insert_ne. intros Heq.
      apply (is_fresh (dom h1)). rewrite Heq. exact Hl.
    + injection Hrun as _ <-. reflexivity.
  - injection Hrun as _ <-. reflexivity.
Qed.

Lemma spectrum_from_model_writes_no_buffer_witness :
  exists computed result h2,
    model_flux unitless_model sample_spectrum shared_store
    = (computed, shared_store) /\
    spectrum_from_model unitless_model sample_spectrum shared_store
    = (result, h2) /\
    forall l : nat, l ∈ dom shared_store -> h2 !! l = shared_store !! l.
Proof.
  eexists _, _, _.
  split; [reflexivity|]. split; [reflexivity|].
  eapply (spectrum_from_model_writes_no_buffer unitless_model sample_spectrum
            shared_store shared_store); reflexivity.
Defined.



(** ** [excise_regions] with the default exciser *)

Lemma matches_axis (a b : Spectrum1D) (region : SpectralRegion) :
  spectral_axis a = spectral_axis b -> matches a region -> matches b region.
Proof. unfold matches. intros ->. auto. Qed.

(** X16.  With the default exciser, [excise_regions] returns a spectrum
    whenever the flux of the input spectrum is as long as its axis and
    every element of the list is a region matching a wavelength sample. *)
Theorem excise_regions_default_returns (regions : list pyobj) :
  forall (spectrum : Spectrum1D) (h : store),
    length (flux_values h spectrum) = length (spectral_axis spectrum) ->
    Forall (fun r => exists rg, r = PySpectralRegion rg /\ matches spectrum rg)
           regions ->
    exists out h',
      excise_regions (PySpectrum1D spectrum) regions default_exciser h
      = (Return (PySpectrum1D out), h').
Proof.
  unfold excise_regions.
  induction regions as [|region regions IH]; intros spectrum h Hlen Hall.
  - exists spectrum, h. reflexivity.
  - apply Forall_cons in Hall as [(rg & -> & Hm) Hall].
    apply matches_inclusive_indices in Hm.
    destruct (inclusive_indices_ends _ _ Hm) as (first & last & Hf & Hl).
    destruct (linear_exciser_returns spectrum rg h first last Hf Hl Hlen)
      as (fs & fe & mid & h1 & _ & _ & Hse & Hrun & Hmid & _ & _ & Hax & _).
    destruct (IH mid h1) as (out & h' & Hrest).
    + rewrite Hmid, Hax, excised_flux_length by lia. exact Hlen.
    + eapply Forall_impl; [exact Hall|].
      intros r (rg' & -> & Hm'). exists rg'. split; [reflexivity|].
      eapply matches_axis; [symmetry; exact Hax | exact Hm'].
    + exists out, h'. simpl. unfold bind at 1. simpl.
      unfold default_exciser, bind at 1. rewrite Hrun.
      unfold ret at 1. exact Hrest.
Qed.

Lemma excise_regions_default_returns_witness :
  length (flux_values sample_store sample_spectrum)
  = length (spectral_axis sample_spectrum) /\
  exists out h',
    excise_regions (PySpectrum1D sample_spectrum)
      [PySpectralRegion sample_region; PySpectralRegion edge_region]
      default_exciser sample_store
    = (Return (PySpectrum1D out), h').
Proof.
  split; [reflexivity|].
  apply (excise_regions_default_returns
           [PySpectralRegion sample_region; PySpectralRegion edge_region]
           sample_spectrum sample_store).
  - reflexivity.
  - repeat constructor.
    + exists sample_region. split; [reflexivity|].
      apply matches_inclusive_indices. vm_compute. discriminate.
    + exists edge_region. split; [reflexivity|].
      apply matches_inclusive_indices. vm_compute. discriminate.
Defined.

(** Through the loop with the default exciser, a cell the store held at
    the start, other than the flux buffer of the spectrum the loop starts
    from, is never written. *)
Lemma for_in_default_frame (regions : list pyobj) :
  forall (spectrum : Spectrum1D) (result : pyobj) (h h' : store) (l : nat),
    for_in regions (PySpectrum1D spectrum)
      (fun spectrum region => excise_region spectrum region default_exciser) h
    = (Return result, h') ->
    l ∈ dom h -> l <> data spectrum -> h' !! l = h !! l.
Proof.
  induction regions as [|region regions IH];
    intros spectrum result h h' l H Hl Hne.
  - simpl in H. unfold ret in H. injection H as _ <-. reflexivity.
  - simpl in H. unfold bind at 1 in H.
    destruct region as [sp | rg | repr]; simpl in H; try discriminate.
    unfold default_exciser, bind at 1 in H.
    destruct (linear_exciser spectrum rg h) as [[mid|e] h1] eqn:E;
      [|discriminate].
    unfold ret at 1 in H.
    destruct (linear_exciser_Return_inv _ _ _ _ _ E)
      as (first & last & fs & fe & _ & _ & Hinv).
    cbv zeta in Hinv.
    destruct Hinv as (_ & _ & _ & _ & Hh1 & Hmne & Hfresh & _ & _).
    assert (Hlm : l <> data mid) by (intros ->; apply Hfresh; exact Hl).
    assert (Hstep : h1 !! l = h !! l).
    { rewrite Hh1. rewrite lookup_insert_ne by congruence.
      apply lookup_insert_ne. congruence. }
    rewrite (IH mid result h1 h' l H); [exact Hstep| |exact Hlm].
    apply elem_of_dom. rewrite Hstep. apply elem_of_dom. exact Hl.
Qed.

(** X17.  With the default exciser, of the buffers the store held before
    the call, [excise_regions] writes the flux buffer of the input spectrum
    at most: every other one holds afterwards what it held before. *)
Theorem excise_regions_default_frame (spectrum : Spectrum1D)
    (regions : list pyobj) (result : pyobj) (h h' : store) (l : nat) :
  excise_regions (PySpectrum1D spectrum) regions default_exciser h
  = (Return result, h') ->
  l ∈ dom h -> l <> data spectrum -> h' !! l = h !! l.
Proof. unfold excise_regions. apply for_in_default_frame. Qed.

(** X18.  With the default exciser the flux buffer of the input spectrum
    is written by the call for the first region only: after
    [excise_regions] on [region :: more] it holds what [linear_exciser]
    left in it for [region], the later calls writing the buffers of the
    intermediate spectra. *)
Theorem excise_regions_default_input_flux (spectrum mid : Spectrum1D)
    (region : SpectralRegion) (more : list pyobj) (result : pyobj)
    (h h1 h' : store) :
  linear_exciser spectrum region h = (Return mid, h1) ->
  excise_regions (PySpectrum1D spectrum) (PySpectralRegion region :: more)
    default_exciser h
  = (Return result, h') ->
  flux_values h' spectrum = flux_values h1 spectrum.
Proof.
  intros Hfirst H. unfold excise_regions in H. simpl in H.
  unfold bind at 1 in H. simpl in H.
  unfold default_exciser, bind at 1 in H. rewrite Hfirst in H.
  unfold ret at 1 in H.
  destruct (linear_exciser_Return_inv _ _ _ _ _ Hfirst)
    as (first & last & fs & fe & _ & _ & Hinv).
  cbv zeta in Hinv.
  destruct Hinv as (_ & _ & _ & _ & Hh1 & Hmne & _ & _ & _).
  unfold flux_values. rewrite !lookup_total_alt.
  rewrite (for_in_default_frame more mid result h1 h' (data spectrum) H);
    [reflexivity | | congruence].
  rewrite Hh1. apply elem_of_dom.
  rewrite lookup_insert_ne by exact Hmne.
  rewrite lookup_insert_eq. eexists. reflexivity.
Qed.

Lemma excise_regions_default_frame_witness :
  exists result h',
    excise_regions (PySpectrum1D sample_spectrum)
      [PySpectralRegion sample_region; PySpectralRegion edge_region]
      default_exciser shared_store
    = (Return result, h') /\
    7%nat ∈ dom shared_store /\
    7%nat <> data sample_spectrum /\
    h' !! 7%nat = shared_store !! 7%nat.
Proof.
  assert (Hin : 7%nat ∈ dom shared_store).
  { apply elem_of_dom. eexists. vm_compute. reflexivity. }
  assert (Hne : 7%nat <> data sample_spectrum) by discriminate.
  eexists _, _. split; [vm_compute; reflexivity|].
  split; [exact Hin|]. split; [exact Hne|].
  eapply (excise_regions_default_frame sample_spectrum
            [PySpectralRegion sample_region; PySpectralRegion edge_region]
            _ shared_store _ 7%nat); [|exact Hin | exact Hne].
  vm_compute; reflexivity.
Defined.

Lemma excise_regions_default_input_flux_witness :
  exists mid h1 result h',
    linear_exciser sample_spectrum sample_region sample_store
    = (Return mid, h1) /\
    excise_regions (PySpectrum1D sample_spectrum)
      (PySpectralRegion sample_region :: [PySpectralRegion edge_region])
      default_exciser sample_store
    = (Return result, h') /\
    flux_values h' sample_spectrum = flux_values h1 sample_spectrum.
Proof.
  eexists _, _, _, _.
  split; [vm_compute; reflexivity|].
  split; [vm_compute; reflexivity|].
  eapply (excise_regions_default_input_flux sample_spectrum _ sample_region
            [PySpectralRegion edge_region] _ sample_store).
  - vm_compute; reflexivity.
  - vm_compute; reflexivity.
Defined.
